(** * Book-instance controller of the library catalogue

    A shallow embedding of [controllers/bookinstanceController.js]: the eight
    route handlers, the express-validator middleware stacks in front of the
    two form handlers, and the storage calls they issue, followed by the
    properties of the handlers.

    A handler is a function from the request and the world (the stored
    collections, a fault oracle for storage calls and the identity
    generator) to the sequence of calls it makes on its collaborators
    (storage, [res.render], [res.redirect], [next]) and the world it leaves. *)

From Stdlib Require Import ZArith Ascii String.
From stdpp Require Import base option list strings gmap.
From Stdlib Require Import Sorted.

Local Open Scope string_scope.
Local Open Scope list_scope.

(** ** JavaScript values held by a request body and by a document *)

Inductive JsVal :=
| VUndefined
| VNull
| VStr (s : string)
| VDate (ms : Z).

#[global] Instance JsVal_eq_dec : EqDecision JsVal.
Proof. solve_decision. Defined.

(** JavaScript truthiness: [undefined], [null] and the empty string are
    falsy; every other string and every Date object is truthy. *)
Definition truthy (v : JsVal) : bool :=
  match v with
  | VUndefined | VNull => false
  | VStr s => negb (String.eqb s EmptyString)
  | VDate _ => true
  end.

(** ** validator.js: the string functions behind the chains

    Strings are byte strings; white space is the ASCII part of the
    JavaScript class [\s] (tab, line feed, vertical tab, form feed, carriage
    return, space). *)
Module validator.

Definition is_space (c : ascii) : bool :=
  let n := nat_of_ascii c in
  (Nat.leb 9 n && Nat.leb n 13) || Nat.eqb n 32.

Fixpoint ltrim (s : string) : string :=
  match s with
  | EmptyString => EmptyString
  | String c rest => if is_space c then ltrim rest else s
  end.

Fixpoint rtrim (s : string) : string :=
  match s with
  | EmptyString => EmptyString
  | String c rest =>
      match rtrim rest with
      | EmptyString => if is_space c then EmptyString else String c EmptyString
      | kept => String c kept
      end
  end.

Definition trim (s : string) : string := rtrim (ltrim s).

(** [escape] replaces the characters & (34) ' < > / \ ` by HTML entities;
    34 is the code of the double quote. *)
Definition escape_char (c : ascii) : string :=
  if Ascii.eqb c "&" then "&amp;"
  else if Nat.eqb (nat_of_ascii c) 34 then "&quot;"
  else if Ascii.eqb c "'" then "&#x27;"
  else if Ascii.eqb c "<" then "&lt;"
  else if Ascii.eqb c ">" then "&gt;"
  else if Ascii.eqb c "/" then "&#x2F;"
  else if Ascii.eqb c "\" then "&#x5C;"
  else if Ascii.eqb c "`" then "&#96;"
  else String c EmptyString.

Fixpoint escape (s : string) : string :=
  match s with
  | EmptyString => EmptyString
  | String c rest => escape_char c +:+ escape rest
  end.

(** [isLength(str, {min})] with no upper bound. *)
Definition isLength (s : string) (min : nat) : bool :=
  Nat.leb min (String.length s).

End validator.

(** ** Documents, errors and the calls a handler makes *)

(** A record's identity as it travels in a path parameter or a form field. *)
Abbreviation Id := string.

(** A book as the queries of this controller see it: [Book.find({}, 'title')]
    projects the identity and the title. *)
Record Book := mkBook { Book_id : Id; title : string }.

(** The [book] path of a book instance: the reference as it was written, or
    what [populate('book')] resolved it to ([null] when no book answers). *)
Inductive BookField :=
| Ref (v : JsVal)
| Populated (b : option Book).

Record BookInstance := mkBookInstance {
  _id : Id;
  book : BookField;
  imprint : JsVal;
  status : JsVal;
  due_back : JsVal
}.

(** [new Error(message)], with the [status] property when one was set. *)
Inductive JsError := Error (message : string) (http_status : option nat).

(** What the JavaScript engine throws by itself. *)
Inductive Exception :=
| TypeError (message : string)
| ReferenceError (message : string).

(** One entry of [validationResult(req).array()]. *)
Record ValidationError := mkValidationError {
  location : string;
  param : string;
  value : JsVal;
  msg : string
}.

(** The storage calls of the controller. [populate] tells whether the query
    was built with [.populate('book')]. *)
Inductive DbOp :=
| BookInstance_find
| BookInstance_findById (id : JsVal) (populate : bool)
| Book_find
| save (doc : BookInstance)
| remove (doc : BookInstance)
| BookInstance_findByIdAndUpdate (id : Id) (update : BookInstance).

(** A value of the object handed to [res.render]. *)
Inductive Local :=
| LStr (s : string)
| LBookInstance (doc : option BookInstance)
| LBookInstances (docs : list BookInstance)
| LBooks (docs : list Book)
| LErrors (errors : list ValidationError).

Inductive Event :=
| exec (op : DbOp)
| render (view : string) (locals : list (string * Local))
| redirect (url : JsVal)
| next (err : JsError)
| throw (e : Exception).

(** What a storage callback receives: [(err, result)]. *)
Inductive Callback (A : Type) :=
| cb_err (err : JsError)
| cb_ok (result : A).
Arguments cb_err {A} err.
Arguments cb_ok {A} result.

(** The world of one request: both collections in their natural order, the
    fault (if any) each storage call meets, whether of two concurrent
    storage calls the first issued is the first to call back, and the
    generator of fresh identities with the number of identities minted so
    far. *)
Record World := mkWorld {
  bookinstances : list BookInstance;
  books : list Book;
  fault : DbOp -> option JsError;
  first_issued_calls_back_first : bool;
  ObjectId : nat -> Id;
  minted : nat
}.

Definition with_bookinstances (w : World) (docs : list BookInstance) : World :=
  mkWorld docs (books w) (fault w) (first_issued_calls_back_first w)
    (ObjectId w) (minted w).

(** ** The request *)

Record Request := mkRequest {
  req_body : gmap string JsVal;
  req_params_id : Id;
  req_validationErrors : list ValidationError
}.

(** Reading a property of [req.body]: a missing key reads as [undefined]. *)
Definition get (b : gmap string JsVal) (field : string) : JsVal :=
  default VUndefined (b !! field).

(** express-validator writes a value back only when it differs. *)
Definition persist (b : gmap string JsVal) (field : string) (v : JsVal)
  : gmap string JsVal :=
  if decide (get b field = v) then b else <[field := v]> b.

(** ** express-validator chains *)

(** The links of a chain, as the source writes them. *)
Inductive Step :=
| isLength (min : nat)
| isISO8601
| optional (checkFalsy : bool)
| trim
| escape
| toDate.

(** [body(field, message).link.link...] and [sanitizeBody(field).link...]. *)
Inductive Middleware :=
| body (field message : string) (chain : list Step)
| sanitizeBody (field : string) (chain : list Step).

(** The [optional] setting of a chain: the last one written wins. *)
Fixpoint optionality (chain : list Step) : option bool :=
  match chain with
  | [] => None
  | optional checkFalsy :: rest =>
      match optionality rest with
      | Some later => Some later
      | None => Some checkFalsy
      end
  | _ :: rest => optionality rest
  end.

(** A field an optional chain leaves alone: [undefined], or falsy when
    [checkFalsy] is set. *)
Definition skipped (chain : list Step) (v : JsVal) : bool :=
  match optionality chain with
  | None => false
  | Some checkFalsy =>
      match v with
      | VUndefined => true
      | _ => checkFalsy && negb (truthy v)
      end
  end.

(** ** A runtime and stored data to run the handlers with *)

Module Run.

(** A runtime to run the handlers with. Dates are the strings of the form
    YYYY-MM-DD, and the time value of one is the number YYYYMMDD; every
    time value prints as the epoch (no form body holds a Date, so the
    validators never ask); the urls are those of the catalogue routes. *)
Definition is_digit (c : ascii) : bool :=
  let n := nat_of_ascii c in
  Nat.leb 48 n && Nat.leb n 57.

Definition isISO8601 (s : string) : bool :=
  match s with
  | String y1 (String y2 (String y3 (String y4 (String h1
      (String m1 (String m2 (String h2 (String d1 (String d2 EmptyString))))))))) =>
      forallb is_digit [y1; y2; y3; y4; m1; m2; d1; d2]
      && Ascii.eqb h1 "-" && Ascii.eqb h2 "-"
  | _ => false
  end.

Fixpoint digits (s : string) (acc : Z) : Z :=
  match s with
  | EmptyString => acc
  | String c rest =>
      if is_digit c
      then digits rest (10 * acc + Z.of_nat (nat_of_ascii c - 48))
      else digits rest acc
  end.

Definition Date_parse (s : string) : option Z :=
  if isISO8601 s then Some (digits s 0) else None.

Definition Date_toISOString (ms : Z) : string := "1970-01-01T00:00:00.000Z".

Definition BookInstance_url (id : Id) : string := "/catalog/bookinstance/" +:+ id.

Definition Book_url (id : Id) : string := "/catalog/book/" +:+ id.

Fixpoint tally (n : nat) : string :=
  match n with
  | 0 => EmptyString
  | S k => String "i" (tally k)
  end.

Definition ObjectId (n : nat) : Id := "oid-" +:+ tally n.

(** Stored data: one book and one copy of it. *)
Definition dune : Book := mkBook "b1" "Dune".

Definition copy : BookInstance :=
  mkBookInstance "c1" (Ref (VStr "b1")) (VStr "Ace, 1990") (VStr "Available") VNull.

Definition storage_down : JsError := Error "connection lost" None.

(** Storage that answers every call. *)
Definition healthy : World :=
  mkWorld [copy] [dune] (fun _ => None) true ObjectId 0.

(** Storage whose book-list fetch faults. *)
Definition book_list_down : World :=
  mkWorld [copy] [dune]
    (fun op => match op with Book_find => Some storage_down | _ => None end)
    true ObjectId 0.

(** Storage whose fetch of all copies faults. *)
Definition copies_down : World :=
  mkWorld [copy] [dune]
    (fun op => match op with BookInstance_find => Some storage_down | _ => None end)
    true ObjectId 0.

(** Storage whose lookups by identity fault. *)
Definition lookup_down : World :=
  mkWorld [copy] [dune]
    (fun op =>
       match op with
       | BookInstance_findById _ _ => Some storage_down
       | _ => None
       end)
    true ObjectId 0.


(** Storage that answers every call and holds the copy but not its book. *)
Definition orphaned : World := mkWorld [copy] [] (fun _ => None) true ObjectId 0.

(** Form bodies. *)
Definition form (book imprint status due_back : string) : gmap string JsVal :=
  list_to_map
    [("book", VStr book); ("imprint", VStr imprint);
     ("status", VStr status); ("due_back", VStr due_back)].

Definition good_form : gmap string JsVal :=
  form "b1" " Ace, 1990 " "<Loaned>" "2019-02-28".

Definition no_book_form : gmap string JsVal :=
  form EmptyString "Ace, 1990" "Available" EmptyString.



(** A request that carries only a path identity, and one that carries only
    the identity field of the delete form. *)
Definition read_request (id : Id) : Request := mkRequest ∅ id [].

Definition delete_request (id : string) : Request :=
  mkRequest {[ "bookinstanceid" := VStr id ]} EmptyString [].

End Run.

Section Controller.

(** What the controller takes from outside this file. *)

(** validator.js [isISO8601(str)]: whether [str] is a well-formed ISO 8601
    date. *)
Variable validator_isISO8601 : string -> bool.

(** [Date.parse(str)]: the time value, [None] for [NaN]. *)
Variable Date_parse : string -> option Z.

(** [date.toISOString()]. *)
Variable Date_toISOString : Z -> string.

(** Modelled from the spec: the [url] virtual of a book instance, declared
    in models/bookinstance.js (absent); the detail location of the record,
    derived from its identity. *)
Variable BookInstance_url : Id -> string.

(** Modelled from the spec: the [url] virtual of a book, declared in
    models/book.js (absent); the detail location of the book, derived from
    its identity. *)
Variable Book_url : Id -> string.

(** express-validator's [toString], applied to a value before a standard
    validator sees it. *)
Definition toString (v : JsVal) : string :=
  match v with
  | VStr s => s
  | VDate ms => Date_toISOString ms
  | VUndefined | VNull => EmptyString
  end.

(** validator.js [toDate(str)]. *)
Definition validator_toDate (s : string) : JsVal :=
  match Date_parse s with
  | Some ms => VDate ms
  | None => VNull
  end.

(** A sanitizer link applied to a string; the other links sanitize nothing. *)
Definition callSanitizer (link : Step) (s : string) : JsVal :=
  match link with
  | trim => VStr (validator.trim s)
  | escape => VStr (validator.escape s)
  | toDate => validator_toDate s
  | isLength _ | isISO8601 | optional _ => VStr s
  end.

(** The sanitizers of a chain, in order; a value that is not (or no longer)
    a string is left as it is. *)
Definition sanitize (chain : list Step) (v : JsVal) : JsVal :=
  fold_left
    (fun prev link =>
       match prev with
       | VStr s => callSanitizer link s
       | _ => prev
       end)
    chain v.

(** A validator link applied to the string form of the value. *)
Definition passes (link : Step) (s : string) : bool :=
  match link with
  | isLength min => validator.isLength s min
  | isISO8601 => validator_isISO8601 s
  | optional _ | trim | escape | toDate => true
  end.

(** One middleware of a stack (express-validator 5, the API the file
    requires): a validation chain first applies its own sanitizers, drops
    the field when the chain is optional and the value is missing, writes
    the sanitized value back, and records one error carrying the chain's
    message when a validator fails; a sanitization chain sanitizes and
    writes back. Both then pass control on. *)
Definition run_middleware (req : Request) (m : Middleware) : Request :=
  match m with
  | body field message chain =>
      let original := get (req_body req) field in
      let v := sanitize chain original in
      if skipped chain v then req
      else
        let b := persist (req_body req) field v in
        if forallb (fun link => passes link (toString v)) chain
        then mkRequest b (req_params_id req) (req_validationErrors req)
        else mkRequest b (req_params_id req)
               (req_validationErrors req
                  ++ [mkValidationError "body" field original message])
  | sanitizeBody field chain =>
      let v := sanitize chain (get (req_body req) field) in
      mkRequest (persist (req_body req) field v)
        (req_params_id req) (req_validationErrors req)
  end.

Definition run_stack (stack : list Middleware) (req : Request) : Request :=
  fold_left run_middleware stack req.

(** [validationResult(req)]; [errors.array()] is the list itself. *)
Definition validationResult (req : Request) : list ValidationError :=
  req_validationErrors req.

Definition isEmpty (errors : list ValidationError) : bool :=
  match errors with
  | [] => true
  | _ :: _ => false
  end.

(** ** The storage collaborator *)

(** The callback of a read: the fault the call meets, or its result. *)
Definition query {A : Type} (w : World) (op : DbOp) (result : A) : Callback A :=
  match fault w op with
  | Some err => cb_err err
  | None => cb_ok result
  end.

Definition has_id (id : Id) (doc : BookInstance) : bool :=
  String.eqb (_id doc) id.

(** [populate('book')]: the reference is replaced by the book it names,
    [null] when there is none. *)
Definition populate_book (w : World) (doc : BookInstance) : BookInstance :=
  let resolved :=
    match book doc with
    | Ref (VStr id) => List.find (fun b => String.eqb (Book_id b) id) (books w)
    | Ref _ => None
    | Populated b => b
    end in
  mkBookInstance (_id doc) (Populated resolved)
    (imprint doc) (status doc) (due_back doc).

(** [BookInstance.find().populate('book').exec(cb)]. *)
Definition find_bookinstances (w : World) : Callback (list BookInstance) :=
  query w BookInstance_find (map (populate_book w) (bookinstances w)).

(** [BookInstance.findById(id)[.populate('book')].exec(cb)]: the first
    stored document with that identity, [null] when there is none. *)
Definition findById (w : World) (id : JsVal) (populate : bool)
  : Callback (option BookInstance) :=
  query w (BookInstance_findById id populate)
    (match id with
     | VStr i =>
         let found := List.find (has_id i) (bookinstances w) in
         if populate then populate_book w <$> found else found
     | _ => None
     end).

(** Insertion of a book into a list ordered by title. *)
Fixpoint insert_by_title (b : Book) (sorted : list Book) : list Book :=
  match sorted with
  | [] => [b]
  | c :: rest =>
      if String.leb (title b) (title c) then b :: sorted
      else c :: insert_by_title b rest
  end.

(** [Book.find({}, 'title').sort([['title', 'ascending']]).exec(cb)]. *)
Definition find_books (w : World) : Callback (list Book) :=
  query w Book_find (foldr insert_by_title [] (books w)).

(** [doc.save(cb)] of a new document: it joins the collection. *)
Definition save_doc (w : World) (doc : BookInstance) : Callback unit * World :=
  match fault w (save doc) with
  | Some err => (cb_err err, w)
  | None => (cb_ok tt, with_bookinstances w (bookinstances w ++ [doc]))
  end.

(** [doc.remove(cb)]: the stored documents with that identity leave the
    collection. *)
Definition remove_doc (w : World) (doc : BookInstance) : Callback unit * World :=
  match fault w (remove doc) with
  | Some err => (cb_err err, w)
  | None =>
      (cb_ok tt,
       with_bookinstances w
         (List.filter (fun d => negb (has_id (_id doc) d)) (bookinstances w)))
  end.

(** The paths an update sets: those the update document defines. *)
Definition set_path (old new : JsVal) : JsVal :=
  match new with
  | VUndefined => old
  | _ => new
  end.

Definition apply_update (old update : BookInstance) : BookInstance :=
  mkBookInstance (_id old)
    (match book update with
     | Ref VUndefined => book old
     | other => other
     end)
    (set_path (imprint old) (imprint update))
    (set_path (status old) (status update))
    (set_path (due_back old) (due_back update)).

Fixpoint update_first (id : Id) (update : BookInstance) (docs : list BookInstance)
  : list BookInstance :=
  match docs with
  | [] => []
  | d :: rest =>
      if has_id id d then apply_update d update :: rest
      else d :: update_first id update rest
  end.

(** [BookInstance.findByIdAndUpdate(id, update, {}, cb)]: the first stored
    document with that identity is updated in place and handed to the
    callback as it was before; with no such document nothing is written and
    the callback receives [null]. *)
Definition findByIdAndUpdate (w : World) (id : Id) (update : BookInstance)
  : Callback (option BookInstance) * World :=
  match fault w (BookInstance_findByIdAndUpdate id update) with
  | Some err => (cb_err err, w)
  | None =>
      (cb_ok (List.find (has_id id) (bookinstances w)),
       with_bookinstances w (update_first id update (bookinstances w)))
  end.

(** [new BookInstance({...})]: with no [_id] given, a fresh identity is
    minted. *)
Definition new_BookInstance (w : World) (_id : option Id)
    (book imprint status due_back : JsVal) : BookInstance * World :=
  match _id with
  | Some id => (mkBookInstance id (Ref book) imprint status due_back, w)
  | None =>
      (mkBookInstance (ObjectId w (minted w)) (Ref book) imprint status due_back,
       mkWorld (bookinstances w) (books w) (fault w)
         (first_issued_calls_back_first w) (ObjectId w) (S (minted w)))
  end.

(** ** The handlers *)

(** [async.parallel] over two tasks: the final callback receives both
    results, or the fault of the task that calls back with one first. *)
Definition parallel {A B : Type} (first_calls_back_first : bool)
    (a : Callback A) (b : Callback B) : Callback (A * B) :=
  match a, b with
  | cb_err err_a, cb_err err_b =>
      cb_err (if first_calls_back_first then err_a else err_b)
  | cb_err err, cb_ok _ => cb_err err
  | cb_ok _, cb_err err => cb_err err
  | cb_ok x, cb_ok y => cb_ok (x, y)
  end.

(** Display list of all BookInstances. The handler is declared as
    [function (req, res)]: [next] is neither a parameter nor a name of the
    module, so evaluating [next(err)] throws. *)
Definition bookinstance_list (req : Request) (w : World) : list Event * World :=
  match find_bookinstances w with
  | cb_err err =>
      ([exec BookInstance_find;
        throw (ReferenceError "next is not defined")], w)
  | cb_ok list_bookinstances =>
      ([exec BookInstance_find;
        render "bookinstance_list"
          [("title", LStr "Book Instance List");
           ("bookinstance_list", LBookInstances list_bookinstances)]], w)
  end.

(** Display detail page for a specific BookInstance. *)
Definition bookinstance_detail (req : Request) (w : World) : list Event * World :=
  let op := BookInstance_findById (VStr (req_params_id req)) true in
  match findById w (VStr (req_params_id req)) true with
  | cb_err err => ([exec op; next err], w)
  | cb_ok None =>
      ([exec op; next (Error "Book copy not found" (Some 404))], w)
  | cb_ok (Some bookinstance) =>
      ([exec op;
        render "bookinstance_detail"
          [("title", LStr "Book");
           ("bookinstance", LBookInstance (Some bookinstance))]], w)
  end.

(** Display BookInstance create form on GET. *)
Definition bookinstance_create_get (req : Request) (w : World)
  : list Event * World :=
  match find_books w with
  | cb_err err => ([exec Book_find; next err], w)
  | cb_ok books =>
      ([exec Book_find;
        render "bookinstance_form"
          [("title", LStr "Create BookInstance"); ("book_list", LBooks books)]],
       w)
  end.

(** The validation and sanitization middlewares of both form handlers. *)
Definition form_stack : list Middleware :=
  [ body "book" "Book must be specified" [isLength 1; trim];
    body "imprint" "Imprint must be specified" [isLength 1; trim];
    body "due_back" "Invalid date" [optional true; isISO8601];
    sanitizeBody "book" [trim; escape];
    sanitizeBody "imprint" [trim; escape];
    sanitizeBody "status" [trim; escape];
    sanitizeBody "due_back" [toDate] ].

(** The form re-rendered with the sanitized values and the error messages;
    both form handlers render it under the same title. *)
Definition render_form_again (w : World) (errors : list ValidationError)
    (bookinstance : BookInstance) : list Event :=
  match find_books w with
  | cb_err err => [exec Book_find; next err]
  | cb_ok books =>
      [exec Book_find;
       render "bookinstance_form"
         [("title", LStr "Create BookInstance");
          ("book_list", LBooks books);
          ("errors", LErrors errors);
          ("bookinstance", LBookInstance (Some bookinstance))]]
  end.

(** Handle BookInstance create on POST: the last function of the stack. *)
Definition create_post_handler (req : Request) (w : World) : list Event * World :=
  let errors := validationResult req in
  let '(bookinstance, w) :=
    new_BookInstance w None
      (get (req_body req) "book") (get (req_body req) "imprint")
      (get (req_body req) "status") (get (req_body req) "due_back") in
  if negb (isEmpty errors) then (render_form_again w errors bookinstance, w)
  else
    match save_doc w bookinstance with
    | (cb_err err, w') => ([exec (save bookinstance); next err], w')
    | (cb_ok _, w') =>
        ([exec (save bookinstance);
          redirect (VStr (BookInstance_url (_id bookinstance)))], w')
    end.

Definition bookinstance_create_post (req : Request) (w : World)
  : list Event * World :=
  create_post_handler (run_stack form_stack req) w.

(** Display BookInstance delete form on GET. The redirect of the absent
    case is not returned, so control reaches the render. *)
Definition bookinstance_delete_get (req : Request) (w : World)
  : list Event * World :=
  let op := BookInstance_findById (VStr (req_params_id req)) true in
  match findById w (VStr (req_params_id req)) true with
  | cb_err err => ([exec op; next err], w)
  | cb_ok bookInstance =>
      (exec op
       :: match bookInstance with
          | None => [redirect (VStr "/catalog/books")]
          | Some _ => []
          end
       ++ [render "bookinstance_delete"
             [("title", LStr "Delete Book Copy");
              ("bookinstance", LBookInstance bookInstance)]], w)
  end.

(** [res.redirect(bookInstance.book.url)]. *)
Definition redirect_to_book (field : BookField) : Event :=
  match field with
  | Populated (Some b) => redirect (VStr (Book_url (Book_id b)))
  | Populated None => throw (TypeError "Cannot read property 'url' of null")
  | Ref VNull => throw (TypeError "Cannot read property 'url' of null")
  | Ref VUndefined =>
      throw (TypeError "Cannot read property 'url' of undefined")
  | Ref _ => redirect VUndefined
  end.

(** Handle BookInstance delete on POST. *)
Definition bookinstance_delete_post (req : Request) (w : World)
  : list Event * World :=
  let id := get (req_body req) "bookinstanceid" in
  match findById w id true with
  | cb_err err => ([exec (BookInstance_findById id true); next err], w)
  | cb_ok None =>
      ([exec (BookInstance_findById id true);
        throw (TypeError "Cannot read property 'remove' of null")], w)
  | cb_ok (Some bookInstance) =>
      match remove_doc w bookInstance with
      | (cb_err err, w') =>
          ([exec (BookInstance_findById id true); exec (remove bookInstance);
            next err], w')
      | (cb_ok _, w') =>
          ([exec (BookInstance_findById id true); exec (remove bookInstance);
            redirect_to_book (book bookInstance)], w')
      end
  end.

(** Display BookInstance update form on GET. *)
Definition bookinstance_update_get (req : Request) (w : World)
  : list Event * World :=
  let op := BookInstance_findById (VStr (req_params_id req)) false in
  match
    parallel (first_issued_calls_back_first w)
      (findById w (VStr (req_params_id req)) false) (find_books w)
  with
  | cb_err err => ([exec op; exec Book_find; next err], w)
  | cb_ok (None, _) =>
      ([exec op; exec Book_find;
        next (Error "Book copy not found" (Some 404))], w)
  | cb_ok (Some bookinstance, book_list) =>
      ([exec op; exec Book_find;
        render "bookinstance_form"
          [("title", LStr "Update BookInstance");
           ("bookinstance", LBookInstance (Some bookinstance));
           ("book_list", LBooks book_list)]], w)
  end.

(** [res.redirect(updatedBookInstance.url)]. *)
Definition redirect_to_updated (updated : option BookInstance) : Event :=
  match updated with
  | Some doc => redirect (VStr (BookInstance_url (_id doc)))
  | None => throw (TypeError "Cannot read property 'url' of null")
  end.

(** Handle bookinstance update on POST: the last function of the stack. *)
Definition update_post_handler (req : Request) (w : World) : list Event * World :=
  let errors := validationResult req in
  let '(bookinstance, w) :=
    new_BookInstance w (Some (req_params_id req))
      (get (req_body req) "book") (get (req_body req) "imprint")
      (get (req_body req) "status") (get (req_body req) "due_back") in
  if negb (isEmpty errors) then (render_form_again w errors bookinstance, w)
  else
    let op := BookInstance_findByIdAndUpdate (req_params_id req) bookinstance in
    match findByIdAndUpdate w (req_params_id req) bookinstance with
    | (cb_err err, w') => ([exec op; next err], w')
    | (cb_ok updatedBookInstance, w') =>
        ([exec op; redirect_to_updated updatedBookInstance], w')
    end.

Definition bookinstance_update_post (req : Request) (w : World)
  : list Event * World :=
  update_post_handler (run_stack form_stack req) w.

(** ** Vocabulary of the properties *)

(** A form submission as the stack receives it: the parsed body, the path
    parameter and no validation error recorded yet. *)
Definition submission (b : gmap string JsVal) (id : Id) : Request :=
  mkRequest b id [].

(** A form field left empty: the key is missing or holds the empty string. *)
Definition submitted_empty (b : gmap string JsVal) (field : string) : Prop :=
  get b field = VUndefined \/ get b field = VStr EmptyString.

(** A call that writes to storage. *)
Definition persists (e : Event) : bool :=
  match e with
  | exec (save _) | exec (remove _) | exec (BookInstance_findByIdAndUpdate _ _) =>
      true
  | _ => false
  end.

Definition no_persistence (trace : list Event) : Prop :=
  List.filter persists trace = [].

(** The form view rendered with a non-empty list of error messages. *)
Definition rerendered_with_errors (trace : list Event) : Prop :=
  exists locals errors,
    In (render "bookinstance_form" locals) trace
    /\ In ("errors", LErrors errors) locals
    /\ errors <> [].


Definition renders (e : Event) : bool :=
  match e with
  | render _ _ => true
  | _ => false
  end.

Definition responds (e : Event) : bool :=
  match e with
  | render _ _ | redirect _ => true
  | _ => false
  end.

(** The error a validation chain records for a field holding [original]. *)
Definition chain_errors (field message : string) (chain : list Step)
    (original : JsVal) : list ValidationError :=
  let v := sanitize chain original in
  if skipped chain v then []
  else if forallb (fun link => passes link (toString v)) chain then []
  else [mkValidationError "body" field original message].

(** The value a text field holds after the stack: trimmed and escaped. *)
Definition sanitized_text (v : JsVal) : JsVal :=
  match v with
  | VStr s => VStr (validator.escape (validator.trim s))
  | _ => v
  end.

(** The value [due_back] holds after the stack. *)
Definition sanitized_date (v : JsVal) : JsVal :=
  match v with
  | VStr s => validator_toDate s
  | _ => v
  end.

(** The document both form handlers build from a sanitized request. *)
Definition document_of (id : Id) (b : gmap string JsVal) : BookInstance :=
  mkBookInstance id
    (Ref (sanitized_text (get b "book")))
    (sanitized_text (get b "imprint"))
    (sanitized_text (get b "status"))
    (sanitized_date (get b "due_back")).

(** The validation errors of a submission, field by field. *)
Definition form_errors (b : gmap string JsVal) : list ValidationError :=
  chain_errors "book" "Book must be specified" [isLength 1; trim] (get b "book")
  ++ chain_errors "imprint" "Imprint must be specified" [isLength 1; trim]
       (get b "imprint")
  ++ chain_errors "due_back" "Invalid date" [optional true; isISO8601]
       (get b "due_back").

(** The world after [new BookInstance] minted an identity. *)
Definition after_mint (w : World) : World :=
  mkWorld (bookinstances w) (books w) (fault w)
    (first_issued_calls_back_first w) (ObjectId w) (S (minted w)).

(** A call that ends the handling of a request: a response, the error
    continuation, or an exception. *)
Definition terminal (e : Event) : bool :=
  match e with
  | exec _ => false
  | render _ _ | redirect _ | next _ | throw _ => true
  end.

(** The error both read handlers build for a missing record. *)
Definition not_found : JsError := Error "Book copy not found" (Some 404).

(** The characters [escape] replaces, the ampersand apart: the double quote
    (code 34), the quote, the angle brackets, the slash, the backslash and
    the backquote. *)
Definition html_special (c : ascii) : bool :=
  Nat.eqb (nat_of_ascii c) 34
  || Ascii.eqb c "'" || Ascii.eqb c "<" || Ascii.eqb c ">"
  || Ascii.eqb c "/" || Ascii.eqb c "\" || Ascii.eqb c "`".

Fixpoint occurs (p : ascii -> bool) (s : string) : bool :=
  match s with
  | EmptyString => false
  | String c rest => p c || occurs p rest
  end.

(** First and last character of a string. *)
Definition first_char (s : string) : option ascii :=
  match s with
  | EmptyString => None
  | String c _ => Some c
  end.

Fixpoint last_char (s : string) : option ascii :=
  match s with
  | EmptyString => None
  | String c EmptyString => Some c
  | String _ rest => last_char rest
  end.

(** Ascending order of titles. *)
Definition by_title (a b : Book) : Prop :=
  String.leb (title a) (title b) = true.

(** The list of all eight handlers but the delete-form read. *)
Definition handlers_but_delete_get (req : Request) (w : World)
  : list (list Event * World) :=
  [ bookinstance_list req w; bookinstance_detail req w;
    bookinstance_create_get req w; bookinstance_create_post req w;
    bookinstance_delete_post req w; bookinstance_update_get req w;
    bookinstance_update_post req w ].

(** The five handlers bound to GET routes. *)
Definition read_handlers (req : Request) (w : World)
  : list (list Event * World) :=
  [ bookinstance_list req w; bookinstance_detail req w;
    bookinstance_create_get req w; bookinstance_delete_get req w;
    bookinstance_update_get req w ].

(** The record a storage call writes, if it writes one. *)
Definition written_record (e : Event) : option BookInstance :=
  match e with
  | exec (save doc) | exec (BookInstance_findByIdAndUpdate _ doc) => Some doc
  | _ => None
  end.

(** The strings among the book, imprint and status of a record. *)
Definition text_of (v : JsVal) : list string :=
  match v with
  | VStr s => [s]
  | _ => []
  end.

Definition text_fields (doc : BookInstance) : list string :=
  match book doc with
  | Ref v => text_of v
  | Populated _ => []
  end
  ++ text_of (imprint doc) ++ text_of (status doc).

(** A string that neither starts nor ends with white space. *)
Definition outer_space_free (s : string) : Prop :=
  (forall c, first_char s = Some c -> validator.is_space c = false)
  /\ (forall c, last_char s = Some c -> validator.is_space c = false).

(** The characters [escape] replaces. *)
Definition escapable (c : ascii) : bool :=
  Ascii.eqb c "&" || html_special c.

(** ** The middleware stack in closed form *)

Lemma rtrim_cons c rest :
  validator.rtrim (String c rest)
  = match validator.rtrim rest with
    | EmptyString =>
        if validator.is_space c then EmptyString else String c EmptyString
    | kept => String c kept
    end.
Proof. reflexivity. Qed.

Lemma rtrim_idempotent s : validator.rtrim (validator.rtrim s) = validator.rtrim s.
Proof.
  induction s as [|c rest IH]; [reflexivity|].
  rewrite rtrim_cons.
  destruct (validator.rtrim rest) as [|k kept] eqn:E.
  - destruct (validator.is_space c) eqn:Ec; [reflexivity|].
    rewrite rtrim_cons. cbn [validator.rtrim]. by rewrite Ec.
  - rewrite rtrim_cons, IH. reflexivity.
Qed.

Lemma ltrim_head s :
  match validator.ltrim s with
  | EmptyString => True
  | String c _ => validator.is_space c = false
  end.
Proof.
  induction s as [|c rest IH]; [exact I|].
  cbn [validator.ltrim]. by destruct (validator.is_space c) eqn:Ec.
Qed.

Lemma trim_idempotent s : validator.trim (validator.trim s) = validator.trim s.
Proof.
  unfold validator.trim.
  pose proof (ltrim_head s) as H.
  destruct (validator.ltrim s) as [|c rest]; [reflexivity|].
  assert (validator.ltrim (validator.rtrim (String c rest))
          = validator.rtrim (String c rest)) as ->.
  { rewrite rtrim_cons.
    destruct (validator.rtrim rest); rewrite ?H; cbn [validator.ltrim];
      by rewrite H. }
  apply rtrim_idempotent.
Qed.

Lemma get_persist_same b field v : get (persist b field v) field = v.
Proof.
  unfold persist. case_decide; [done|].
  unfold get. by rewrite lookup_insert_eq.
Qed.

Lemma get_persist_other b field other v :
  field <> other -> get (persist b field v) other = get b other.
Proof.
  intros Hne. unfold persist. case_decide; [done|].
  unfold get. by rewrite lookup_insert_ne.
Qed.

Lemma run_body_errors req field message chain :
  req_validationErrors (run_middleware req (body field message chain))
  = req_validationErrors req
    ++ chain_errors field message chain (get (req_body req) field).
Proof.
  unfold run_middleware, chain_errors. cbn zeta.
  destruct (skipped _ _); [by rewrite app_nil_r|].
  destruct (forallb _ _); cbn; [by rewrite app_nil_r | done].
Qed.

Lemma run_body_get_same req field message chain :
  get (req_body (run_middleware req (body field message chain))) field
  = if skipped chain (sanitize chain (get (req_body req) field))
    then get (req_body req) field
    else sanitize chain (get (req_body req) field).
Proof.
  unfold run_middleware. cbn zeta.
  destruct (skipped _ _); [done|].
  destruct (forallb _ _); cbn; apply get_persist_same.
Qed.

Lemma run_body_get_other req field message chain other :
  field <> other ->
  get (req_body (run_middleware req (body field message chain))) other
  = get (req_body req) other.
Proof.
  intros Hne. unfold run_middleware. cbn zeta.
  destruct (skipped _ _); [done|].
  destruct (forallb _ _); cbn; by apply get_persist_other.
Qed.

Lemma run_sanitize_errors req field chain :
  req_validationErrors (run_middleware req (sanitizeBody field chain))
  = req_validationErrors req.
Proof. reflexivity. Qed.

Lemma run_sanitize_get_same req field chain :
  get (req_body (run_middleware req (sanitizeBody field chain))) field
  = sanitize chain (get (req_body req) field).
Proof. cbn. apply get_persist_same. Qed.

Lemma run_sanitize_get_other req field chain other :
  field <> other ->
  get (req_body (run_middleware req (sanitizeBody field chain))) other
  = get (req_body req) other.
Proof. intros Hne. cbn. by apply get_persist_other. Qed.

Lemma run_middleware_params req m :
  req_params_id (run_middleware req m) = req_params_id req.
Proof.
  destruct m as [field message chain|field chain]; [|reflexivity].
  unfold run_middleware. cbn zeta.
  destruct (skipped _ _); [done|]. by destruct (forallb _ _).
Qed.

Lemma run_stack_params stack req :
  req_params_id (run_stack stack req) = req_params_id req.
Proof.
  unfold run_stack. revert req.
  induction stack as [|m stack IH]; intros req; [reflexivity|].
  cbn [fold_left]. rewrite IH. apply run_middleware_params.
Qed.

Ltac stack_step :=
  first
    [ rewrite run_sanitize_errors
    | rewrite run_body_errors
    | rewrite run_sanitize_get_same
    | rewrite run_body_get_same
    | rewrite run_sanitize_get_other by discriminate
    | rewrite run_body_get_other by discriminate ].

(** The errors the stack records are those of the three validation chains,
    each on the value its field was submitted with. *)
Lemma form_stack_errors b id :
  validationResult (run_stack form_stack (submission b id)) = form_errors b.
Proof.
  unfold validationResult, run_stack, form_stack, form_errors.
  cbn [fold_left]. repeat stack_step. cbn [submission req_body req_validationErrors].
  by rewrite app_nil_l, <- !app_assoc.
Qed.

Lemma sanitize_validators_only v : sanitize [optional true; isISO8601] v = v.
Proof. by destruct v. Qed.

Lemma sanitize_trim_escape v : sanitize [trim; escape] v = sanitized_text v.
Proof. by destruct v. Qed.

Lemma sanitize_length_trim v :
  sanitize [isLength 1; trim] v
  = match v with VStr s => VStr (validator.trim s) | _ => v end.
Proof. by destruct v. Qed.

(** The body the stack hands to the final function. *)
Lemma form_stack_body b id :
  let b' := req_body (run_stack form_stack (submission b id)) in
  get b' "book" = sanitized_text (get b "book")
  /\ get b' "imprint" = sanitized_text (get b "imprint")
  /\ get b' "status" = sanitized_text (get b "status")
  /\ get b' "due_back" = sanitized_date (get b "due_back").
Proof.
  unfold run_stack, form_stack. cbn [fold_left]. cbn zeta.
  repeat split; repeat stack_step; cbn [submission req_body].
  - rewrite sanitize_trim_escape, sanitize_length_trim.
    destruct (get b "book"); cbn; try done. by rewrite trim_idempotent.
  - rewrite sanitize_trim_escape, sanitize_length_trim.
    destruct (get b "imprint"); cbn; try done. by rewrite trim_idempotent.
  - apply sanitize_trim_escape.
  - rewrite sanitize_validators_only.
    destruct (skipped _ _); by destruct (get b "due_back").
Qed.

Lemma create_post_unfold b id w :
  bookinstance_create_post (submission b id) w
  = let doc := document_of (ObjectId w (minted w)) b in
    if negb (isEmpty (form_errors b))
    then (render_form_again (after_mint w) (form_errors b) doc, after_mint w)
    else
      match save_doc (after_mint w) doc with
      | (cb_err err, w') => ([exec (save doc); next err], w')
      | (cb_ok _, w') =>
          ([exec (save doc); redirect (VStr (BookInstance_url (_id doc)))], w')
      end.
Proof.
  unfold bookinstance_create_post, create_post_handler.
  rewrite form_stack_errors.
  destruct (form_stack_body b id) as (-> & -> & -> & ->).
  reflexivity.
Qed.

Lemma update_post_unfold b id w :
  bookinstance_update_post (submission b id) w
  = let doc := document_of id b in
    if negb (isEmpty (form_errors b))
    then (render_form_again w (form_errors b) doc, w)
    else
      match findByIdAndUpdate w id doc with
      | (cb_err err, w') =>
          ([exec (BookInstance_findByIdAndUpdate id doc); next err], w')
      | (cb_ok updated, w') =>
          ([exec (BookInstance_findByIdAndUpdate id doc);
            redirect_to_updated updated], w')
      end.
Proof.
  unfold bookinstance_update_post, update_post_handler.
  rewrite form_stack_errors, run_stack_params.
  destruct (form_stack_body b id) as (-> & -> & -> & ->).
  reflexivity.
Qed.

(** ** Validation outcomes *)

Lemma empty_field_error b field message :
  submitted_empty b field ->
  chain_errors field message [isLength 1; trim] (get b field)
  = [mkValidationError "body" field (get b field) message].
Proof. intros [-> | ->]; reflexivity. Qed.

Lemma empty_required_field_errors b :
  submitted_empty b "book" \/ submitted_empty b "imprint" ->
  isEmpty (form_errors b) = false.
Proof.
  unfold form_errors. intros [H | H].
  - by rewrite (empty_field_error _ _ _ H).
  - rewrite (empty_field_error _ "imprint" _ H).
    by destruct (chain_errors "book" _ _ _).
Qed.




(** The error branch of both form handlers writes nothing. *)
Lemma render_form_again_no_persistence w errors doc :
  no_persistence (render_form_again w errors doc).
Proof.
  unfold render_form_again, find_books, query.
  by destruct (fault w Book_find).
Qed.

Lemma render_form_again_fault w errors doc err :
  fault w Book_find = Some err ->
  render_form_again w errors doc = [exec Book_find; next err].
Proof. intros H. unfold render_form_again, find_books, query. by rewrite H. Qed.

Lemma render_form_again_ok w errors doc :
  fault w Book_find = None ->
  render_form_again w errors doc
  = [exec Book_find;
     render "bookinstance_form"
       [("title", LStr "Create BookInstance");
        ("book_list", LBooks (foldr insert_by_title [] (books w)));
        ("errors", LErrors errors);
        ("bookinstance", LBookInstance (Some doc))]].
Proof. intros H. unfold render_form_again, find_books, query. by rewrite H. Qed.

Lemma render_form_again_shows w errors doc :
  fault w Book_find = None ->
  exists locals,
    In (render "bookinstance_form" locals) (render_form_again w errors doc)
    /\ In ("errors", LErrors errors) locals.
Proof.
  intros H. rewrite (render_form_again_ok _ _ _ H).
  eexists. split; [right; left; reflexivity|]. cbn. tauto.
Qed.

(** ** Properties of the form handlers *)

(** C1 (as amended): a create or update submission whose book field or
    imprint field is empty performs no persistence operation and leaves the
    stored records as they were; when the book-list fetch succeeds the form
    view is rendered again with a non-empty list of error messages, and when
    that fetch faults the fault is forwarded to the error continuation. *)
Theorem C1_empty_field_rerenders_or_forwards b id w :
  submitted_empty b "book" \/ submitted_empty b "imprint" ->
  let created := bookinstance_create_post (submission b id) w in
  let updated := bookinstance_update_post (submission b id) w in
  no_persistence created.1 /\ no_persistence updated.1
  /\ bookinstances created.2 = bookinstances w
  /\ bookinstances updated.2 = bookinstances w
  /\ match fault w Book_find with
     | None =>
         rerendered_with_errors created.1 /\ rerendered_with_errors updated.1
     | Some err =>
         created.1 = [exec Book_find; next err]
         /\ updated.1 = [exec Book_find; next err]
     end.
Proof.
  intros Hempty. cbn zeta.
  rewrite create_post_unfold, update_post_unfold. cbn zeta.
  pose proof (empty_required_field_errors b Hempty) as Herr.
  rewrite Herr. cbn [negb fst snd].
  repeat split; try apply render_form_again_no_persistence.
  destruct (fault w Book_find) as [err|] eqn:Hfault.
  - split; by apply render_form_again_fault.
  - assert (form_errors b <> []) as Hne by (by destruct (form_errors b)).
    split.
    + destruct (render_form_again_shows (after_mint w) (form_errors b)
                  (document_of (ObjectId w (minted w)) b) Hfault)
        as (locals & Hin & Hshown).
      by exists locals, (form_errors b).
    + destruct (render_form_again_shows w (form_errors b) (document_of id b)
                  Hfault) as (locals & Hin & Hshown).
      by exists locals, (form_errors b).
Qed.


(** ** Identities under update *)

Lemma has_id_eq id doc : has_id id doc = true -> _id doc = id.
Proof. unfold has_id. by intros ?%String.eqb_eq. Qed.

Lemma find_has_id id docs doc :
  List.find (has_id id) docs = Some doc -> _id doc = id.
Proof. intros [_ H]%find_some. by apply has_id_eq. Qed.






(** ** Lookups by identity *)

(** A lookup returns [null] without fault exactly when the storage call
    meets no fault and no stored record carries the identity. *)
Lemma findById_null w id populate :
  findById w (VStr id) populate = cb_ok None
  <-> fault w (BookInstance_findById (VStr id) populate) = None
      /\ List.find (has_id id) (bookinstances w) = None.
Proof.
  unfold findById, query.
  destruct (fault w _); [by split; [|intros []]|].
  destruct (List.find (has_id id) (bookinstances w)), populate; cbn;
    split; try done; by intros [_ ?].
Qed.

Lemma find_after_remove id docs :
  List.find (has_id id) (List.filter (fun d => negb (has_id id d)) docs) = None.
Proof.
  induction docs as [|d rest IH]; [reflexivity|].
  cbn [List.filter]. destruct (has_id id d) eqn:Hd; cbn [negb]; [exact IH|].
  cbn [List.find]. by rewrite Hd.
Qed.

(** C5 (as amended): for a detail request and for an update-form read
    request whose path identity matches no stored record, the handler
    renders no view, sends no response and leaves storage as it was; when no
    storage call of the request faults it forwards a 404-status error to
    the error continuation, and when one faults it forwards that fault (in
    the update-form read, of two faults the one that calls back first). *)
Theorem C5_absent_record_is_not_found req w :
  List.find (has_id (req_params_id req)) (bookinstances w) = None ->
  let id := VStr (req_params_id req) in
  let not_found := Error "Book copy not found" (Some 404) in
  bookinstance_detail req w
  = ([exec (BookInstance_findById id true);
      next (match fault w (BookInstance_findById id true) with
            | Some err => err
            | None => not_found
            end)], w)
  /\ bookinstance_update_get req w
     = ([exec (BookInstance_findById id false); exec Book_find;
         next (match fault w (BookInstance_findById id false),
                     fault w Book_find with
               | Some err_lookup, Some err_books =>
                   if first_issued_calls_back_first w
                   then err_lookup else err_books
               | Some err, None | None, Some err => err
               | None, None => not_found
               end)], w)
  /\ List.filter responds (bookinstance_detail req w).1 = []
  /\ List.filter responds (bookinstance_update_get req w).1 = [].
Proof.
  intros Habsent. cbn zeta.
  unfold bookinstance_detail, bookinstance_update_get, findById, find_books,
    query, parallel.
  rewrite Habsent. cbn [fmap option_fmap option_map].
  destruct (fault w (BookInstance_findById _ true)),
    (fault w (BookInstance_findById _ false)), (fault w Book_find);
    repeat split.
Qed.

(** ** Deletion *)

(** C8 (as amended): for a delete submission whose identity matches a
    stored record with a resolvable related book, the handler, when the
    lookup meets no fault, issues one write, the removal of that record;
    when the removal succeeds no record with that identity remains stored
    and the handler redirects to the url of the related book, and when it
    faults the fault is forwarded and storage is untouched. A fault of the
    lookup is forwarded and nothing is removed. *)
Theorem C8_delete_removes_and_redirects_to_book req w id stored related :
  get (req_body req) "bookinstanceid" = VStr id ->
  List.find (has_id id) (bookinstances w) = Some stored ->
  book (populate_book w stored) = Populated (Some related) ->
  let doc := populate_book w stored in
  let lookup := BookInstance_findById (VStr id) true in
  let result := bookinstance_delete_post req w in
  match fault w lookup with
  | Some err => result = ([exec lookup; next err], w)
  | None =>
      _id doc = id
      /\ List.filter persists result.1 = [exec (remove doc)]
      /\ (fault w (remove doc) = None ->
          result.1
          = [exec lookup; exec (remove doc);
             redirect (VStr (Book_url (Book_id related)))]
          /\ List.find (has_id id) (bookinstances result.2) = None
          /\ bookinstances result.2
             = List.filter (fun d => negb (has_id id d)) (bookinstances w))
      /\ (forall err,
            fault w (remove doc) = Some err ->
            result.1 = [exec lookup; exec (remove doc); next err]
            /\ result.2 = w)
  end.
Proof.
  intros Hid Hstored Hbook. cbn zeta.
  unfold bookinstance_delete_post, findById, query. rewrite Hid.
  destruct (fault w (BookInstance_findById (VStr id) true)); [reflexivity|].
  rewrite Hstored. cbn [fmap option_fmap option_map]. unfold remove_doc.
  assert (_id (populate_book w stored) = id) as Hdoc
    by apply (find_has_id _ _ _ Hstored).
  split; [exact Hdoc|].
  destruct (fault w (remove (populate_book w stored))) as [err|];
    cbn [fst snd].
  - split; [reflexivity|]. split; [discriminate|].
    intros err' [= <-]. by split.
  - rewrite Hbook. cbn [redirect_to_book].
    split; [reflexivity|]. split; [|discriminate].
    intros _. split; [reflexivity|].
    cbn [with_bookinstances bookinstances]. rewrite Hdoc.
    split; [apply find_after_remove | reflexivity].
Qed.

(** C9: when the lookup of a delete submission returns no record and no
    fault, the handler goes on to call remove on the null result, which
    throws; it forwards no error (no not-found outcome), sends no redirect
    or view, issues no write and leaves storage as it was. *)
Theorem C9_delete_of_absent_record_throws req w :
  let id := get (req_body req) "bookinstanceid" in
  findById w id true = cb_ok None ->
  bookinstance_delete_post req w
  = ([exec (BookInstance_findById id true);
      throw (TypeError "Cannot read property 'remove' of null")], w)
  /\ List.filter responds (bookinstance_delete_post req w).1 = []
  /\ no_persistence (bookinstance_delete_post req w).1
  /\ forall err, ~ In (next err) (bookinstance_delete_post req w).1.
Proof.
  cbn zeta. intros Hnull.
  unfold bookinstance_delete_post. rewrite Hnull.
  repeat split. intros err [H|[H|[]]]; discriminate.
Qed.

(** ** The two handlers that miss their intended outcome *)

(** The list handler cannot reach the error continuation: a fault of the
    fetch makes it throw. *)
Lemma bookinstance_list_fault req w err :
  fault w BookInstance_find = Some err ->
  bookinstance_list req w
  = ([exec BookInstance_find; throw (ReferenceError "next is not defined")], w).
Proof.
  intros H. unfold bookinstance_list, find_bookinstances, query.
  by rewrite H.
Qed.

(** The delete-form read handler renders the confirmation view after the
    redirect when the lookup returns no record. *)
Lemma bookinstance_delete_get_absent req w :
  findById w (VStr (req_params_id req)) true = cb_ok None ->
  bookinstance_delete_get req w
  = ([exec (BookInstance_findById (VStr (req_params_id req)) true);
      redirect (VStr "/catalog/books");
      render "bookinstance_delete"
        [("title", LStr "Delete Book Copy");
         ("bookinstance", LBookInstance None)]], w).
Proof. intros H. unfold bookinstance_delete_get. by rewrite H. Qed.

(** ** Properties of all handlers *)

Ltac open_handlers :=
  unfold bookinstance_list, bookinstance_detail, bookinstance_create_get,
    bookinstance_create_post, bookinstance_delete_get,
    bookinstance_delete_post, bookinstance_update_get,
    bookinstance_update_post, create_post_handler, update_post_handler,
    render_form_again, find_bookinstances, find_books, findById, save_doc,
    remove_doc, findByIdAndUpdate, new_BookInstance, query, parallel.

(** X1: the five handlers bound to GET routes never write: whatever the
    request and the state of storage, they leave the world as it was and
    issue no save, remove or update. *)
Theorem X1_read_handlers_never_write req w :
  Forall (fun result : list Event * World =>
            result.2 = w /\ no_persistence result.1)
    (read_handlers req w).
Proof.
  unfold read_handlers, no_persistence. open_handlers.
  repeat constructor; repeat case_match; reflexivity.
Qed.


(** X2: every handler but the delete-form read ends a request with exactly
    one terminal call (a render, a redirect, the error continuation or an
    exception), whatever the request and the world. The delete-form read
    makes exactly one too, except when its lookup returns no record without
    fault, where it makes two. *)
Theorem X2_one_terminal_call req w :
  Forall (fun result : list Event * World =>
            length (List.filter terminal result.1) = 1)
    (handlers_but_delete_get req w)
  /\ length (List.filter terminal (bookinstance_delete_get req w).1)
     = match findById w (VStr (req_params_id req)) true with
       | cb_ok None => 2
       | _ => 1
       end.
Proof.
  unfold handlers_but_delete_get. open_handlers.
  unfold redirect_to_updated, redirect_to_book. split.
  - repeat constructor; repeat case_match; reflexivity.
  - repeat case_match; simplify_eq; reflexivity.
Qed.

(** Case analysis along a handler: the fault of each storage call first,
    then what the calls return. *)
Ltac walk :=
  open_handlers; unfold redirect_to_updated, redirect_to_book;
  cbn [fault bookinstances books fst snd];
  repeat (first
            [ match goal with
              | |- context [fault ?w ?op] => destruct (fault w op) eqn:?
              end
            | case_match ];
          cbn [fault bookinstances books fst snd]).

Ltac forwarded :=
  cbn [fst snd In app]; intros Hin; decompose [or] Hin;
  try discriminate; try contradiction;
  match goal with H : next _ = next _ |- _ => injection H as <- end;
  first [ left; reflexivity
        | right; eexists; split; [|eassumption]; cbn [In]; auto ].

(** X3: an error reaches the error continuation only as the 404 error of
    the two read handlers or as the fault that a storage call issued in the
    same request met: no handler forwards an error of its own making, and a
    fault is forwarded as it came. *)
Theorem X3_forwarded_errors_are_faults_or_not_found req w :
  Forall (fun result : list Event * World =>
            forall err,
              In (next err) result.1 ->
              err = not_found
              \/ exists op, In (exec op) result.1 /\ fault w op = Some err)
    (bookinstance_delete_get req w :: handlers_but_delete_get req w).
Proof.
  unfold handlers_but_delete_get, not_found.
  repeat match goal with |- Forall _ _ => constructor end;
    intros err; walk; forwarded.
Qed.

(** ** What the read handlers show *)

Lemma insert_by_title_perm b sorted :
  Permutation (insert_by_title b sorted) (b :: sorted).
Proof.
  induction sorted as [|c rest IH]; [reflexivity|].
  cbn [insert_by_title]. destruct (String.leb (title b) (title c)); [reflexivity|].
  rewrite IH. apply perm_swap.
Qed.

Lemma insert_by_title_sorted b sorted :
  Sorted by_title sorted -> Sorted by_title (insert_by_title b sorted).
Proof.
  induction sorted as [|c rest IH]; intros Hsorted.
  - repeat constructor.
  - cbn [insert_by_title].
    destruct (String.leb (title b) (title c)) eqn:Hbc.
    + constructor; [exact Hsorted|]. by constructor.
    + apply Sorted_inv in Hsorted as [Hrest Hhead].
      constructor; [by apply IH|].
      assert (by_title c b) as Hcb
        by (destruct (String.leb_total (title b) (title c)); [congruence|done]).
      destruct rest as [|d rest]; [by constructor|].
      cbn [insert_by_title].
      destruct (String.leb (title b) (title d)); constructor; [done|].
      by apply HdRel_inv in Hhead.
Qed.

(** The book list every form receives: the stored books, each once, in
    ascending order of title. *)
Lemma sorted_books stored :
  Permutation (foldr insert_by_title [] stored) stored
  /\ Sorted by_title (foldr insert_by_title [] stored).
Proof.
  induction stored as [|b rest [IHperm IHsorted]]; [by repeat constructor|].
  cbn [foldr]. split.
  - by rewrite insert_by_title_perm, IHperm.
  - by apply insert_by_title_sorted.
Qed.

Lemma populate_book_resolves w stored ref :
  book stored = Ref (VStr ref) ->
  exists related,
    book (populate_book w stored) = Populated related
    /\ (forall b, related = Some b -> Book_id b = ref /\ In b (books w))
    /\ (related = None -> forall b, In b (books w) -> Book_id b <> ref).
Proof.
  intros Href. unfold populate_book. rewrite Href. cbn [book].
  eexists. split; [reflexivity|]. split.
  - intros b [Hin Hid%String.eqb_eq]%find_some. by split.
  - intros Hnone b Hin Hid.
    pose proof (find_none _ _ Hnone b Hin) as Hneq. cbn in Hneq.
    by rewrite Hid, String.eqb_refl in Hneq.
Qed.

(** X4: when the lookup meets no fault and a record is stored under the
    path identity, the detail handler renders the detail view, and the
    delete-form read handler the confirmation view without any redirect,
    both with that record: its identity is the one asked for, its fields
    are the stored ones, and its book reference is resolved to a stored book
    with the referenced identity, or to null exactly when no stored book has
    it. *)
Theorem X4_found_record_is_shown_populated req w stored ref :
  fault w (BookInstance_findById (VStr (req_params_id req)) true) = None ->
  List.find (has_id (req_params_id req)) (bookinstances w) = Some stored ->
  book stored = Ref (VStr ref) ->
  exists shown related,
    bookinstance_detail req w
    = ([exec (BookInstance_findById (VStr (req_params_id req)) true);
        render "bookinstance_detail"
          [("title", LStr "Book");
           ("bookinstance", LBookInstance (Some shown))]], w)
    /\ bookinstance_delete_get req w
       = ([exec (BookInstance_findById (VStr (req_params_id req)) true);
           render "bookinstance_delete"
             [("title", LStr "Delete Book Copy");
              ("bookinstance", LBookInstance (Some shown))]], w)
    /\ _id shown = req_params_id req
    /\ imprint shown = imprint stored
    /\ status shown = status stored
    /\ due_back shown = due_back stored
    /\ book shown = Populated related
    /\ (forall b, related = Some b -> Book_id b = ref /\ In b (books w))
    /\ (related = None -> forall b, In b (books w) -> Book_id b <> ref).
Proof.
  intros Hfault Hstored Href.
  destruct (populate_book_resolves w stored ref Href)
    as (related & Hbook & Hsome & Hnone).
  exists (populate_book w stored), related.
  unfold bookinstance_detail, bookinstance_delete_get, findById, query.
  rewrite Hfault, Hstored. cbn [fmap option_fmap option_map app].
  split; [reflexivity|]. split; [reflexivity|].
  split; [apply (find_has_id _ _ _ Hstored)|].
  do 3 (split; [reflexivity|]).
  split; [exact Hbook|]. split; [exact Hsome | exact Hnone].
Qed.

(** X5: when neither the lookup nor the book-list fetch faults and a record
    is stored under the path identity, the update-form read handler
    renders the form under the title 'Update BookInstance' with that record
    as it is stored (its book still a reference) and with the stored books,
    each once, in ascending order of title. *)
Theorem X5_update_form_is_prefilled req w stored :
  fault w (BookInstance_findById (VStr (req_params_id req)) false) = None ->
  fault w Book_find = None ->
  List.find (has_id (req_params_id req)) (bookinstances w) = Some stored ->
  exists book_list,
    bookinstance_update_get req w
    = ([exec (BookInstance_findById (VStr (req_params_id req)) false);
        exec Book_find;
        render "bookinstance_form"
          [("title", LStr "Update BookInstance");
           ("bookinstance", LBookInstance (Some stored));
           ("book_list", LBooks book_list)]], w)
    /\ _id stored = req_params_id req
    /\ Permutation book_list (books w)
    /\ Sorted by_title book_list.
Proof.
  intros Hlookup Hbooks Hstored.
  exists (foldr insert_by_title [] (books w)).
  unfold bookinstance_update_get, findById, find_books, query, parallel.
  rewrite Hlookup, Hbooks, Hstored.
  split; [reflexivity|]. split; [apply (find_has_id _ _ _ Hstored)|].
  apply sorted_books.
Qed.

(** X6: the create-form read handler forwards a fault of the book-list
    fetch, and otherwise renders the form under the title 'Create
    BookInstance' with the stored books, each once, in ascending order of
    title, whatever the request. *)
Theorem X6_create_form_lists_books_by_title req w :
  match fault w Book_find with
  | Some err => bookinstance_create_get req w = ([exec Book_find; next err], w)
  | None =>
      exists book_list,
        bookinstance_create_get req w
        = ([exec Book_find;
            render "bookinstance_form"
              [("title", LStr "Create BookInstance");
               ("book_list", LBooks book_list)]], w)
        /\ Permutation book_list (books w)
        /\ Sorted by_title book_list
  end.
Proof.
  unfold bookinstance_create_get, find_books, query.
  destruct (fault w Book_find); [reflexivity|].
  exists (foldr insert_by_title [] (books w)).
  split; [reflexivity | apply sorted_books].
Qed.

(** X7: when the fetch of all records meets no fault, the list handler
    renders the list view with one entry per stored record, in storage
    order, each with the identity, imprint, status and due-back date of the
    stored record and with its book reference populated. *)
Theorem X7_list_shows_every_stored_record req w :
  fault w BookInstance_find = None ->
  exists shown,
    bookinstance_list req w
    = ([exec BookInstance_find;
        render "bookinstance_list"
          [("title", LStr "Book Instance List");
           ("bookinstance_list", LBookInstances shown)]], w)
    /\ Forall2
         (fun entry stored =>
            _id entry = _id stored
            /\ imprint entry = imprint stored
            /\ status entry = status stored
            /\ due_back entry = due_back stored
            /\ exists related, book entry = Populated related)
         shown (bookinstances w).
Proof.
  intros Hfault. exists (map (populate_book w) (bookinstances w)).
  unfold bookinstance_list, find_bookinstances, query. rewrite Hfault.
  split; [reflexivity|].
  induction (bookinstances w) as [|stored rest IH]; constructor; [|exact IH].
  unfold populate_book. cbn. eauto 10.
Qed.

(** ** Edge cases of the write handlers *)


Lemma update_first_frame id update docs :
  Forall2 (fun old new => _id new = _id old /\ (_id old <> id -> new = old))
    docs (update_first id update docs).
Proof.
  induction docs as [|d rest IH]; [constructor|].
  cbn [update_first]. destruct (has_id id d) eqn:Hd.
  - constructor.
    + split; [reflexivity|]. intros Hne. by apply has_id_eq in Hd.
    + clear. induction rest; by constructor.
  - constructor; [by split | exact IH].
Qed.


(** X8: a delete submission for a stored record whose book reference
    resolves to no stored book still removes the record when neither the
    lookup nor the removal faults, and only then throws on reading the url
    of the null book: the record is gone and no redirect is sent. *)
Theorem X8_delete_with_unresolved_book_removes_then_throws req w id stored :
  get (req_body req) "bookinstanceid" = VStr id ->
  List.find (has_id id) (bookinstances w) = Some stored ->
  book (populate_book w stored) = Populated None ->
  fault w (BookInstance_findById (VStr id) true) = None ->
  fault w (remove (populate_book w stored)) = None ->
  (bookinstance_delete_post req w).1
  = [exec (BookInstance_findById (VStr id) true);
     exec (remove (populate_book w stored));
     throw (TypeError "Cannot read property 'url' of null")]
  /\ List.find (has_id id) (bookinstances (bookinstance_delete_post req w).2)
     = None.
Proof.
  intros Hid Hstored Hbook Hlookup Hremove.
  unfold bookinstance_delete_post, findById, query, remove_doc.
  rewrite Hid, Hlookup, Hstored. cbn [fmap option_fmap option_map].
  rewrite Hremove, Hbook. cbn [fst snd redirect_to_book].
  split; [reflexivity|]. cbn [with_bookinstances bookinstances].
  assert (_id (populate_book w stored) = id) as ->
    by apply (find_has_id _ _ _ Hstored).
  apply find_after_remove.
Qed.


(** X10: a write handler touches only the record it addresses, whatever
    the request and the world. Create leaves the stored records in place
    and appends at most one, under the identity it minted; update keeps
    every stored record at its place and under its identity, and leaves
    those with another identity than the path parameter as they were;
    delete adds nothing and keeps every record whose identity is not the
    submitted one. *)
Theorem X10_writes_touch_only_the_addressed_record req w :
  (exists added,
      bookinstances (bookinstance_create_post req w).2
      = bookinstances w ++ added
      /\ length added <= 1
      /\ Forall (fun doc => _id doc = ObjectId w (minted w)) added)
  /\ Forall2
       (fun old new =>
          _id new = _id old /\ (_id old <> req_params_id req -> new = old))
       (bookinstances w) (bookinstances (bookinstance_update_post req w).2)
  /\ (forall doc,
        In doc (bookinstances (bookinstance_delete_post req w).2) ->
        In doc (bookinstances w))
  /\ (forall doc,
        In doc (bookinstances w) ->
        get (req_body req) "bookinstanceid" <> VStr (_id doc) ->
        In doc (bookinstances (bookinstance_delete_post req w).2)).
Proof.
  assert (forall docs : list BookInstance,
             Forall2
               (fun old new =>
                  _id new = _id old
                  /\ (_id old <> req_params_id req -> new = old)) docs docs)
    as Hsame by (intros docs; induction docs; by constructor).
  split; [|split; [|split]].
  - unfold bookinstance_create_post, create_post_handler, render_form_again,
      find_books, save_doc, query.
    cbn [new_BookInstance fault bookinstances].
    assert (exists added : list BookInstance,
               bookinstances w = bookinstances w ++ added
               /\ length added <= 1
               /\ Forall (fun doc => _id doc = ObjectId w (minted w)) added)
      as Hnone
      by (exists []; rewrite app_nil_r; repeat split; [cbn; lia | constructor]).
    destruct (negb _); [exact Hnone|].
    destruct (fault w (save _)); cbn [snd with_bookinstances bookinstances];
      [exact Hnone|].
    eexists [_]. split; [reflexivity|]. split; [cbn; lia|].
    by repeat constructor.
  - unfold bookinstance_update_post, update_post_handler, render_form_again,
      find_books, findByIdAndUpdate, query.
    cbn [new_BookInstance]. rewrite run_stack_params.
    destruct (negb _); [destruct (fault w Book_find); apply Hsame|].
    destruct (fault w (BookInstance_findByIdAndUpdate _ _));
      cbn [snd with_bookinstances bookinstances]; [apply Hsame|].
    apply update_first_frame.
  - intros doc. walk; cbn [with_bookinstances bookinstances]; try done;
      by intros [? _]%filter_In.
  - intros doc Hin Hother. walk; cbn [with_bookinstances bookinstances];
      try done; apply filter_In; (split; [exact Hin|]);
      apply negb_true_iff; unfold has_id;
      apply String.eqb_neq; intros Heq;
      match goal with
      | H : _ <$> List.find _ _ = Some _ |- _ =>
          apply fmap_Some in H as (found & Hfound%find_has_id & ->)
      end;
      cbn [_id populate_book] in Heq; congruence.
Qed.

(** ** Requests in sequence *)


(** X12: after a delete submission found its record and removed it without
    fault, the record is gone for later requests: a detail request for that
    identity ends in the 404 error, and the same delete submission again
    throws on the null lookup result instead of reporting not-found. *)
Theorem X12_deleted_record_is_gone req w id stored req' :
  let after := (bookinstance_delete_post req w).2 in
  get (req_body req) "bookinstanceid" = VStr id ->
  List.find (has_id id) (bookinstances w) = Some stored ->
  fault w (BookInstance_findById (VStr id) true) = None ->
  fault w (remove (populate_book w stored)) = None ->
  req_params_id req' = id ->
  bookinstance_detail req' after
  = ([exec (BookInstance_findById (VStr id) true); next not_found], after)
  /\ bookinstance_delete_post req after
     = ([exec (BookInstance_findById (VStr id) true);
         throw (TypeError "Cannot read property 'remove' of null")], after).
Proof.
  cbn zeta. intros Hid Hstored Hlookup Hremove Hreq.
  assert ((bookinstance_delete_post req w).2
          = with_bookinstances w
              (List.filter (fun d => negb (has_id id d)) (bookinstances w)))
    as ->.
  { unfold bookinstance_delete_post, findById, query, remove_doc.
    rewrite Hid, Hlookup, Hstored. cbn [fmap option_fmap option_map].
    rewrite Hremove. cbn [snd].
    by rewrite (find_has_id _ _ _ Hstored : _id (populate_book w stored) = id). }
  unfold bookinstance_detail, bookinstance_delete_post, findById, query.
  rewrite Hreq, Hid. cbn [with_bookinstances fault bookinstances].
  rewrite Hlookup, find_after_remove. by split.
Qed.

(** ** The middleware stack on any request *)


(** ** What the sanitizers guarantee *)

Lemma occurs_append p s1 s2 :
  occurs p (s1 +:+ s2) = occurs p s1 || occurs p s2.
Proof.
  induction s1 as [|c rest IH]; [reflexivity|].
  simpl. by rewrite IH, orb_assoc.
Qed.

Lemma escape_char_special c :
  occurs html_special (validator.escape_char c) = false.
Proof.
  unfold validator.escape_char.
  repeat case_match; try reflexivity.
  cbn [occurs]. unfold html_special.
  repeat match goal with H : _ = false |- _ => rewrite H; clear H end.
  reflexivity.
Qed.

Lemma escape_special s : occurs html_special (validator.escape s) = false.
Proof.
  induction s as [|c rest IH]; [reflexivity|].
  cbn [validator.escape]. by rewrite occurs_append, escape_char_special, IH.
Qed.

Lemma text_fields_sanitized i b s :
  In s (text_fields (document_of i b)) ->
  exists raw, s = validator.escape (validator.trim raw).
Proof.
  unfold text_fields, document_of. cbn [book imprint status].
  destruct (get b "book"), (get b "imprint"), (get b "status");
    cbn [sanitized_text text_of app In];
    intros Hin; decompose [or] Hin; try contradiction; subst; eauto.
Qed.

Lemma written_by_form_handlers b id w doc :
  In (Some doc)
    (map written_record
       ((bookinstance_create_post (submission b id) w).1
        ++ (bookinstance_update_post (submission b id) w).1)) ->
  exists i, doc = document_of i b.
Proof.
  rewrite create_post_unfold, update_post_unfold. cbn zeta.
  unfold render_form_again, find_books, save_doc, findByIdAndUpdate, query,
    redirect_to_updated.
  cbn [after_mint fault].
  repeat case_match; cbn; intros Hin; decompose [or] Hin;
    try discriminate; try contradiction;
    match goal with H : Some _ = Some _ |- _ => injection H as <- end; eauto.
Qed.

(** X14: every record a form handler hands to a save or to an update
    holds, in its book, imprint and status strings, none of the characters
    double quote, quote, less-than, greater-than, slash, backslash and
    backquote, whatever was submitted. *)
Theorem X14_written_text_holds_no_html_special b id w doc :
  In (Some doc)
    (map written_record
       ((bookinstance_create_post (submission b id) w).1
        ++ (bookinstance_update_post (submission b id) w).1)) ->
  Forall (fun s => occurs html_special s = false) (text_fields doc).
Proof.
  intros [i ->]%written_by_form_handlers.
  apply List.Forall_forall. intros s [raw ->]%text_fields_sanitized.
  apply escape_special.
Qed.

Lemma last_char_none s : last_char s = None -> s = EmptyString.
Proof.
  induction s as [|c rest IH]; [done|].
  cbn [last_char]. destruct rest; [discriminate|]. intros H.
  by apply IH in H.
Qed.

Lemma first_char_append s1 s2 :
  first_char (s1 +:+ s2)
  = match first_char s1 with Some c => Some c | None => first_char s2 end.
Proof. by destruct s1. Qed.

Lemma last_char_append s1 s2 :
  last_char (s1 +:+ s2)
  = match last_char s2 with Some c => Some c | None => last_char s1 end.
Proof.
  induction s1 as [|c rest IH];
    [change (EmptyString +:+ s2) with s2; by destruct (last_char s2)|].
  destruct rest as [|d rest].
  - change (String c EmptyString +:+ s2) with (String c s2).
    destruct s2 as [|e rest]; [reflexivity|].
    change (last_char (String c (String e rest)))
      with (last_char (String e rest)).
    destruct (last_char (String e rest)) eqn:E; [reflexivity|].
    by apply last_char_none in E.
  - change (last_char (String c (String d rest) +:+ s2))
      with (last_char (String d rest +:+ s2)).
    rewrite IH. reflexivity.
Qed.

Lemma escape_char_edges c :
  validator.is_space c = false ->
  outer_space_free (validator.escape_char c)
  /\ first_char (validator.escape_char c) <> None.
Proof.
  intros Hc. unfold validator.escape_char, outer_space_free.
  repeat case_match; cbn; repeat split; try done;
    intros x [= <-]; done.
Qed.

Lemma escape_empty s : validator.escape s = EmptyString -> s = EmptyString.
Proof.
  destruct s as [|c rest]; [done|]. cbn [validator.escape].
  unfold validator.escape_char. repeat case_match; discriminate.
Qed.

Lemma escape_edges s :
  outer_space_free s -> outer_space_free (validator.escape s).
Proof.
  intros [Hfirst Hlast]. split.
  - destruct s as [|c rest]; [done|]. cbn [validator.escape].
    rewrite first_char_append.
    destruct (escape_char_edges c (Hfirst c eq_refl)) as [[Hc _] Hsome].
    destruct (first_char (validator.escape_char c)) eqn:E; [|done].
    intros x [= <-]. by apply Hc.
  - clear Hfirst. induction s as [|c rest IH]; [done|].
    cbn [validator.escape]. rewrite last_char_append.
    destruct (last_char (validator.escape rest)) as [y|] eqn:E.
    + intros x [= <-]. destruct rest as [|d rest]; [discriminate|].
      apply IH; [|done]. intros z Hz. by apply Hlast.
    + apply last_char_none, escape_empty in E as ->.
      by apply escape_char_edges, Hlast.
Qed.

Lemma rtrim_last s c :
  last_char (validator.rtrim s) = Some c -> validator.is_space c = false.
Proof.
  induction s as [|d rest IH]; [done|]. rewrite rtrim_cons.
  destruct (validator.rtrim rest) as [|k kept] eqn:E.
  - destruct (validator.is_space d) eqn:Hd; [done|]. by intros [= <-].
  - exact IH.
Qed.

Lemma trim_edges s : outer_space_free (validator.trim s).
Proof.
  unfold validator.trim. split; [|apply rtrim_last].
  pose proof (ltrim_head s) as H.
  destruct (validator.ltrim s) as [|d rest]; [done|]. rewrite rtrim_cons.
  destruct (validator.rtrim rest); rewrite ?H; by intros c [= <-].
Qed.


(** ** What an invalid submission gets back *)

Lemma chain_errors_one field message chain original :
  chain_errors field message chain original
  = if negb (skipped chain (sanitize chain original))
       && negb (forallb
                  (fun link => passes link (toString (sanitize chain original)))
                  chain)
    then [mkValidationError "body" field original message]
    else [].
Proof.
  unfold chain_errors. cbn zeta.
  destruct (skipped chain _); [reflexivity|]. by destruct (forallb _ chain).
Qed.

(** X16: the validation errors of a submission come in the order book,
    imprint, due_back, at most one per field, each under location body
    with the message of its chain and the value as it was submitted. *)
Theorem X16_at_most_one_error_per_field_in_order b id :
  exists book_fails imprint_fails date_fails : bool,
    validationResult (run_stack form_stack (submission b id))
    = (if book_fails
       then [mkValidationError "body" "book" (get b "book")
               "Book must be specified"]
       else [])
      ++ (if imprint_fails
          then [mkValidationError "body" "imprint" (get b "imprint")
                  "Imprint must be specified"]
          else [])
      ++ (if date_fails
          then [mkValidationError "body" "due_back" (get b "due_back")
                  "Invalid date"]
          else []).
Proof.
  rewrite form_stack_errors. unfold form_errors.
  rewrite !chain_errors_one. do 3 eexists. reflexivity.
Qed.


(** X18: validation reads the book, imprint and due_back fields and
    nothing else: two submissions that agree on these three fields record
    the same errors, whatever their other fields and path parameters. *)
Theorem X18_validation_reads_three_fields_only b b' id id' :
  get b "book" = get b' "book" ->
  get b "imprint" = get b' "imprint" ->
  get b "due_back" = get b' "due_back" ->
  validationResult (run_stack form_stack (submission b id))
  = validationResult (run_stack form_stack (submission b' id')).
Proof.
  intros Hbook Himprint Hdate. rewrite !form_stack_errors.
  unfold form_errors. by rewrite Hbook, Himprint, Hdate.
Qed.

(** ** Sanitizing twice *)

Lemma string_length_append s1 s2 :
  String.length (s1 +:+ s2) = String.length s1 + String.length s2.
Proof.
  induction s1 as [|c rest IH]; [reflexivity|].
  change (String c rest +:+ s2) with (String c (rest +:+ s2)).
  cbn [String.length]. by rewrite IH.
Qed.

Lemma escape_char_fixed c :
  escapable c = false -> validator.escape_char c = String c EmptyString.
Proof.
  unfold escapable, html_special, validator.escape_char.
  repeat case_match; cbn; intros Hesc; first [reflexivity | discriminate].
Qed.

Lemma escape_char_grows c :
  escapable c = true ->
  1 < String.length (validator.escape_char c)
  /\ occurs escapable (validator.escape_char c) = true.
Proof.
  unfold escapable, html_special, validator.escape_char.
  repeat case_match; cbn [orb]; intros Hesc;
    first [discriminate | split; [cbn; lia | reflexivity]].
Qed.

Lemma escape_char_length c : 1 <= String.length (validator.escape_char c).
Proof.
  unfold validator.escape_char. repeat case_match; cbn; lia.
Qed.

Lemma escape_fixed s :
  occurs escapable s = false -> validator.escape s = s.
Proof.
  induction s as [|c rest IH]; [reflexivity|].
  cbn [occurs validator.escape]. intros [Hc Hrest]%orb_false_elim.
  by rewrite (escape_char_fixed c Hc), IH.
Qed.

Lemma escape_length s :
  String.length s <= String.length (validator.escape s).
Proof.
  induction s as [|c rest IH]; [reflexivity|].
  cbn [validator.escape]. rewrite string_length_append.
  pose proof (escape_char_length c). cbn [String.length]. lia.
Qed.

Lemma escape_grows s :
  occurs escapable s = true ->
  String.length s < String.length (validator.escape s)
  /\ occurs escapable (validator.escape s) = true.
Proof.
  induction s as [|c rest IH]; [discriminate|].
  cbn [occurs validator.escape]. rewrite string_length_append, occurs_append.
  pose proof (escape_length rest). pose proof (escape_char_length c).
  destruct (escapable c) eqn:Hc.
  - destruct (escape_char_grows c Hc) as [Hlen ->].
    intros _. split; [cbn [String.length]; lia | reflexivity].
  - cbn [orb]. intros Hrest. destruct (IH Hrest) as [Hlen ->].
    split; [cbn [String.length]; lia | apply orb_true_r].
Qed.

Lemma ltrim_fixed s :
  (forall c, first_char s = Some c -> validator.is_space c = false) ->
  validator.ltrim s = s.
Proof.
  destruct s as [|c rest]; [reflexivity|]. intros H.
  cbn [validator.ltrim]. by rewrite (H c eq_refl).
Qed.

Lemma rtrim_fixed s :
  (forall c, last_char s = Some c -> validator.is_space c = false) ->
  validator.rtrim s = s.
Proof.
  induction s as [|c rest IH]; [reflexivity|]. intros H.
  rewrite rtrim_cons. destruct rest as [|d rest].
  - cbn [validator.rtrim]. by rewrite (H c eq_refl).
  - rewrite IH; [reflexivity|]. intros x Hx. by apply H.
Qed.

Lemma trim_fixed s : outer_space_free s -> validator.trim s = s.
Proof.
  intros [Hfirst Hlast]. unfold validator.trim.
  rewrite (ltrim_fixed s Hfirst). by apply rtrim_fixed.
Qed.

(** X19: sanitizing a text field is not idempotent. Passing a sanitized
    value through the sanitizers again (as when a stored value is submitted
    back through the form) leaves it unchanged exactly when the trimmed
    original held none of the characters that are escaped; otherwise the
    entities are escaped once more and the value grows. *)
Theorem X19_sanitizing_again_changes_escaped_text s :
  (sanitized_text (sanitized_text (VStr s)) = sanitized_text (VStr s)
   <-> occurs escapable (validator.trim s) = false)
  /\ forall once twice,
      sanitized_text (VStr s) = VStr once ->
      sanitized_text (VStr once) = VStr twice ->
      String.length once <= String.length twice.
Proof.
  cbn [sanitized_text].
  rewrite (trim_fixed _ (escape_edges _ (trim_edges s))). split.
  - destruct (occurs escapable (validator.trim s)) eqn:Hocc.
    + split; [|discriminate]. intros [= Heq].
      destruct (escape_grows _ Hocc) as [_ Hagain].
      destruct (escape_grows _ Hagain) as [Hlen _].
      rewrite Heq in Hlen. lia.
    + split; [done|]. intros _. by rewrite !(escape_fixed _ Hocc).
  - intros once twice [= <-] [= <-].
    rewrite (trim_fixed _ (escape_edges _ (trim_edges s))).
    apply escape_length.
Qed.

End Controller.

(** * The handlers on concrete requests *)

Local Abbreviation create_post :=
  (bookinstance_create_post Run.isISO8601 Run.Date_parse Run.Date_toISOString
     Run.BookInstance_url).

Local Abbreviation update_post :=
  (bookinstance_update_post Run.isISO8601 Run.Date_parse Run.Date_toISOString
     Run.BookInstance_url).

Local Abbreviation delete_post := (bookinstance_delete_post Run.Book_url).

Local Abbreviation validate b id :=
  (validationResult
     (run_stack Run.isISO8601 Run.Date_parse Run.Date_toISOString form_stack
        (submission b id))).

Example good_form_is_valid : validate Run.good_form "c1" = [].
Proof. vm_compute. reflexivity. Qed.

Example good_form_created :
  create_post (submission Run.good_form "c1") Run.healthy
  = ([exec (save (mkBookInstance "oid-" (Ref (VStr "b1")) (VStr "Ace, 1990")
                    (VStr "&lt;Loaned&gt;") (VDate 20190228)));
      redirect (VStr "/catalog/bookinstance/oid-")],
     mkWorld
       [Run.copy;
        mkBookInstance "oid-" (Ref (VStr "b1")) (VStr "Ace, 1990")
          (VStr "&lt;Loaned&gt;") (VDate 20190228)]
       [Run.dune] (fault Run.healthy) true Run.ObjectId 1).
Proof. vm_compute. reflexivity. Qed.

(** ** Empty required fields *)

(** C1 at a concrete submission: the book field is empty and storage
    answers; the form comes back with errors and nothing is written. *)
Lemma C1_witness :
  submitted_empty Run.no_book_form "book"
  /\ rerendered_with_errors
       (create_post (submission Run.no_book_form "c1") Run.healthy).1
  /\ no_persistence
       (update_post (submission Run.no_book_form "c1") Run.healthy).1.
Proof.
  assert (submitted_empty Run.no_book_form "book") as Hempty
    by (right; vm_compute; reflexivity).
  pose proof
    (C1_empty_field_rerenders_or_forwards Run.isISO8601 Run.Date_parse
       Run.Date_toISOString Run.BookInstance_url Run.no_book_form "c1"
       Run.healthy (or_introl Hempty)) as H.
  cbn zeta in H. destruct H as (_ & Hnone & _ & _ & Hshown).
  split; [exact Hempty|]. split; [exact (proj1 Hshown) | exact Hnone].
Defined.

(** C1 as stated fails when the book-list fetch faults: the book field is
    empty, and the handler forwards the fault without rendering the form. *)
Lemma C1_counterexample :
  submitted_empty Run.no_book_form "book"
  /\ (create_post (submission Run.no_book_form "c1") Run.book_list_down).1
     = [exec Book_find; next Run.storage_down]
  /\ ~ rerendered_with_errors
         (create_post (submission Run.no_book_form "c1") Run.book_list_down).1.
Proof.
  split; [right; vm_compute; reflexivity|].
  split; [vm_compute; reflexivity|].
  intros (locals & errors & Hin & _).
  vm_compute in Hin. destruct Hin as [H|[H|[]]]; discriminate.
Qed.

(** ** The due-back date *)



(** ** Update and create of a valid submission *)





(** ** Records that are not there *)

(** C5 at a concrete request: no copy is stored under 'missing' and storage
    answers; both read handlers forward the 404 error. *)
Lemma C5_witness :
  List.find (has_id "missing") (bookinstances Run.healthy) = None
  /\ bookinstance_detail (Run.read_request "missing") Run.healthy
     = ([exec (BookInstance_findById (VStr "missing") true);
         next (Error "Book copy not found" (Some 404))], Run.healthy)
  /\ bookinstance_update_get (Run.read_request "missing") Run.healthy
     = ([exec (BookInstance_findById (VStr "missing") false); exec Book_find;
         next (Error "Book copy not found" (Some 404))], Run.healthy).
Proof.
  assert (List.find (has_id (req_params_id (Run.read_request "missing")))
            (bookinstances Run.healthy) = None) as Habsent by reflexivity.
  destruct (C5_absent_record_is_not_found (Run.read_request "missing")
              Run.healthy Habsent) as (Hdetail & Hform & _).
  split; [exact Habsent|]. split; [exact Hdetail | exact Hform].
Defined.

(** C5 as stated fails when a storage call faults: no copy is stored under
    'missing', the book-list fetch of the update-form read faults, and what
    the handler forwards is that fault, which carries no 404 status. *)
Lemma C5_counterexample :
  List.find (has_id "missing") (bookinstances Run.book_list_down) = None
  /\ (bookinstance_update_get (Run.read_request "missing") Run.book_list_down).1
     = [exec (BookInstance_findById (VStr "missing") false); exec Book_find;
        next (Error "connection lost" None)]
  /\ forall message,
      ~ In (next (Error message (Some 404)))
          (bookinstance_update_get (Run.read_request "missing")
             Run.book_list_down).1.
Proof.
  split; [reflexivity|]. split; [reflexivity|].
  intros message [H|[H|[H|[]]]]; discriminate.
Qed.

(** C8 at a concrete submission: the stored copy c1 of the book b1 is
    removed and the handler redirects to the url of b1. *)
Lemma C8_witness :
  List.find (has_id "c1") (bookinstances Run.healthy) = Some Run.copy
  /\ (delete_post (Run.delete_request "c1") Run.healthy).1
     = [exec (BookInstance_findById (VStr "c1") true);
        exec (remove (populate_book Run.healthy Run.copy));
        redirect (VStr "/catalog/book/b1")]
  /\ bookinstances (delete_post (Run.delete_request "c1") Run.healthy).2 = [].
Proof.
  assert (List.find (has_id "c1") (bookinstances Run.healthy) = Some Run.copy)
    as Hstored by reflexivity.
  assert (get (req_body (Run.delete_request "c1")) "bookinstanceid" = VStr "c1")
    as Hid by (vm_compute; reflexivity).
  pose proof
    (C8_delete_removes_and_redirects_to_book Run.Book_url
       (Run.delete_request "c1") Run.healthy "c1" Run.copy Run.dune
       Hid Hstored eq_refl) as H.
  cbn zeta in H. destruct H as (_ & _ & Hremoved & _).
  destruct Hremoved as (Htrace & _ & Hrest); [reflexivity|].
  split; [exact Hstored|]. split.
  - rewrite Htrace. reflexivity.
  - rewrite Hrest. reflexivity.
Defined.

(** C8 as stated fails when the lookup faults: the copy c1 is stored, and
    the handler forwards the fault, issues no removal and leaves c1 stored. *)
Lemma C8_counterexample :
  List.find (has_id "c1") (bookinstances Run.lookup_down) = Some Run.copy
  /\ (delete_post (Run.delete_request "c1") Run.lookup_down).1
     = [exec (BookInstance_findById (VStr "c1") true); next Run.storage_down]
  /\ bookinstances (delete_post (Run.delete_request "c1") Run.lookup_down).2
     = [Run.copy].
Proof.
  split; [reflexivity|]. split; vm_compute; reflexivity.
Qed.

(** C9 at a concrete submission: no copy is stored under 'missing', and
    the handler throws on the null result. *)
Lemma C9_witness :
  findById Run.healthy (get (req_body (Run.delete_request "missing"))
                          "bookinstanceid") true = cb_ok None
  /\ delete_post (Run.delete_request "missing") Run.healthy
     = ([exec (BookInstance_findById (VStr "missing") true);
         throw (TypeError "Cannot read property 'remove' of null")],
        Run.healthy).
Proof.
  assert (findById Run.healthy
            (get (req_body (Run.delete_request "missing")) "bookinstanceid")
            true = cb_ok None) as Hnull by (vm_compute; reflexivity).
  destruct (C9_delete_of_absent_record_throws Run.Book_url
              (Run.delete_request "missing") Run.healthy Hnull)
    as (Hthrown & _).
  split; [exact Hnull|]. rewrite Hthrown. vm_compute. reflexivity.
Defined.

(** ** The two handlers that miss their intended outcome, run *)

(** C6: the lookup of the delete form finds no copy under 'missing'; the
    handler sends the redirect and then still renders the confirmation
    view, with a null record. *)
Lemma C6_delete_get_renders_after_redirect :
  findById Run.healthy (VStr "missing") true = cb_ok None
  /\ bookinstance_delete_get (Run.read_request "missing") Run.healthy
     = ([exec (BookInstance_findById (VStr "missing") true);
         redirect (VStr "/catalog/books");
         render "bookinstance_delete"
           [("title", LStr "Delete Book Copy");
            ("bookinstance", LBookInstance None)]], Run.healthy)
  /\ List.filter renders
       (bookinstance_delete_get (Run.read_request "missing") Run.healthy).1
     <> [].
Proof.
  split; [reflexivity|]. split; [reflexivity|]. discriminate.
Qed.

(** C7: the fetch of all copies faults; the list handler throws a
    ReferenceError and the fault reaches no error continuation. *)
Lemma C7_list_fault_is_not_forwarded :
  fault Run.copies_down BookInstance_find = Some Run.storage_down
  /\ bookinstance_list (Run.read_request "any") Run.copies_down
     = ([exec BookInstance_find; throw (ReferenceError "next is not defined")],
        Run.copies_down)
  /\ forall err,
      ~ In (next err)
          (bookinstance_list (Run.read_request "any") Run.copies_down).1.
Proof.
  split; [reflexivity|]. split; [reflexivity|].
  intros err [H|[H|[]]]; discriminate.
Qed.

(** ** Further runs *)

(** X4 at a concrete request: the stored copy c1 is shown with its book
    resolved to Dune. *)
Lemma X4_witness :
  List.find (has_id "c1") (bookinstances Run.healthy) = Some Run.copy
  /\ exists shown,
      bookinstance_detail (Run.read_request "c1") Run.healthy
      = ([exec (BookInstance_findById (VStr "c1") true);
          render "bookinstance_detail"
            [("title", LStr "Book");
             ("bookinstance", LBookInstance (Some shown))]], Run.healthy)
      /\ _id shown = "c1"
      /\ exists related, book shown = Populated related.
Proof.
  assert (List.find (has_id "c1") (bookinstances Run.healthy) = Some Run.copy)
    as Hstored by reflexivity.
  destruct (X4_found_record_is_shown_populated (Run.read_request "c1")
              Run.healthy Run.copy "b1" eq_refl Hstored eq_refl)
    as (shown & related & Hdetail & _ & Hid & _ & _ & _ & Hbook & _).
  split; [exact Hstored|]. exists shown.
  split; [exact Hdetail|]. split; [exact Hid|]. by exists related.
Defined.

(** X5 at a concrete request: the update form for c1 is filled with the
    stored copy. *)
Lemma X5_witness :
  exists book_list,
    bookinstance_update_get (Run.read_request "c1") Run.healthy
    = ([exec (BookInstance_findById (VStr "c1") false); exec Book_find;
        render "bookinstance_form"
          [("title", LStr "Update BookInstance");
           ("bookinstance", LBookInstance (Some Run.copy));
           ("book_list", LBooks book_list)]], Run.healthy)
    /\ Sorted by_title book_list.
Proof.
  destruct (X5_update_form_is_prefilled (Run.read_request "c1") Run.healthy
              Run.copy eq_refl eq_refl eq_refl)
    as (book_list & Hform & _ & _ & Hsorted).
  by exists book_list.
Defined.

(** X7 at a concrete request: the list shows the one stored copy. *)
Lemma X7_witness :
  exists shown,
    (bookinstance_list (Run.read_request "any") Run.healthy).1
    = [exec BookInstance_find;
       render "bookinstance_list"
         [("title", LStr "Book Instance List");
          ("bookinstance_list", LBookInstances shown)]]
    /\ length shown = 1.
Proof.
  destruct (X7_list_shows_every_stored_record (Run.read_request "any")
              Run.healthy eq_refl) as (shown & Hlist & Hall).
  exists shown. split; [by rewrite Hlist|].
  by apply Forall2_length in Hall.
Defined.

(** X8 at a concrete submission: the book of c1 is not stored; c1 is
    removed and the handler throws. *)
Lemma X8_witness :
  book (populate_book Run.orphaned Run.copy) = Populated None
  /\ (delete_post (Run.delete_request "c1") Run.orphaned).1
     = [exec (BookInstance_findById (VStr "c1") true);
        exec (remove (populate_book Run.orphaned Run.copy));
        throw (TypeError "Cannot read property 'url' of null")]
  /\ bookinstances (delete_post (Run.delete_request "c1") Run.orphaned).2 = [].
Proof.
  assert (get (req_body (Run.delete_request "c1")) "bookinstanceid"
          = VStr "c1") as Hid by (vm_compute; reflexivity).
  destruct (X8_delete_with_unresolved_book_removes_then_throws Run.Book_url
              (Run.delete_request "c1") Run.orphaned "c1" Run.copy
              Hid eq_refl eq_refl eq_refl eq_refl) as [Htrace _].
  split; [reflexivity|]. split; [exact Htrace|]. vm_compute. reflexivity.
Defined.



(** X12 at a concrete submission: after c1 is deleted its detail page is
    the 404 error. *)
Lemma X12_witness :
  bookinstance_detail (Run.read_request "c1")
    (delete_post (Run.delete_request "c1") Run.healthy).2
  = ([exec (BookInstance_findById (VStr "c1") true); next not_found],
     (delete_post (Run.delete_request "c1") Run.healthy).2).
Proof.
  assert (get (req_body (Run.delete_request "c1")) "bookinstanceid"
          = VStr "c1") as Hid by (vm_compute; reflexivity).
  pose proof
    (X12_deleted_record_is_gone Run.Book_url (Run.delete_request "c1")
       Run.healthy "c1" Run.copy (Run.read_request "c1")
       Hid eq_refl eq_refl eq_refl eq_refl) as H.
  cbn zeta in H. exact (proj1 H).
Defined.

(** X14 at a concrete submission: the status <Loaned> is written without
    angle brackets. *)
Lemma X14_witness :
  exists doc,
    In (Some doc)
      (map written_record
         ((create_post (submission Run.good_form "c1") Run.healthy).1
          ++ (update_post (submission Run.good_form "c1") Run.healthy).1))
    /\ status doc = VStr "&lt;Loaned&gt;"
    /\ Forall (fun s => occurs html_special s = false) (text_fields doc).
Proof.
  eexists.
  assert (In (Some (mkBookInstance "oid-" (Ref (VStr "b1")) (VStr "Ace, 1990")
                      (VStr "&lt;Loaned&gt;") (VDate 20190228)))
            (map written_record
               ((create_post (submission Run.good_form "c1") Run.healthy).1
                ++ (update_post (submission Run.good_form "c1")
                      Run.healthy).1))) as Hwritten
    by (vm_compute; left; reflexivity).
  split; [exact Hwritten|]. split; [reflexivity|].
  exact (X14_written_text_holds_no_html_special Run.isISO8601 Run.Date_parse
           Run.Date_toISOString Run.BookInstance_url Run.good_form "c1"
           Run.healthy _ Hwritten).
Defined.



(** X18 at concrete submissions: a form that differs from the valid one
    in its status only is valid too. *)
Lemma X18_witness :
  validate (<["status" := VStr "Sold"]> Run.good_form) "c2"
  = validate Run.good_form "c1".
Proof.
  apply X18_validation_reads_three_fields_only; vm_compute; reflexivity.
Defined.

(** X19 at a concrete value: R&D holds an ampersand, and sanitizing it a
    second time changes it again. *)
Lemma X19_witness :
  occurs escapable (validator.trim "R&D") = true
  /\ sanitized_text (VStr "R&D") = VStr "R&amp;D"
  /\ sanitized_text (sanitized_text (VStr "R&D"))
     <> sanitized_text (VStr "R&D").
Proof.
  split; [reflexivity|]. split; [reflexivity|].
  intros Hsame.
  apply (proj1 (X19_sanitizing_again_changes_escaped_text "R&D")) in Hsame.
  discriminate.
Defined.
